(** * The 3-qubit bit-flip demo (main.py), embedded and verified

    The development follows the source file top to bottom:

    - [Py]: the few Python values and exceptions the program uses;
    - [Qiskit]: the part of the circuit library the program calls
      (circuit construction with index resolution, composite instructions);
    - [Simulator]: the ideal (noise-free) outcome distribution of a circuit,
      with exact amplitudes in Q(sqrt 2);
    - the program itself: [encode_bitflip], [decode_bitflip],
      [make_circuit_with_error], [majority_from_key] and [run_demo];
    - the properties of the program. *)

From Stdlib Require Import ZArith QArith List String Ascii Bool Lia Permutation.
Import ListNotations.

Set Warnings "-register-all".

Local Open Scope string_scope.
Local Open Scope list_scope.
Local Open Scope Z_scope.

(* ================================================================== *)
(** ** Python values, exceptions and results *)

Module Py.

(** The exceptions that can leave the program.  [ValueError] carries the
    message given at the [raise] site; [IntValueError c] is the [ValueError]
    that the builtin [int] raises on the one-character string [c];
    the [CircuitError_*] cases are the circuit library's own exception;
    [BackendError] and [StopIteration] are for what the backend and the
    plotting library may raise. *)
Inductive exn : Type :=
| ValueError (msg : string)
| IntValueError (c : ascii)
| KeyError (key : string)
| CircuitError_index (i : Z) (size : nat)
| CircuitError_duplicate
| CircuitError_arity
| BackendError (info : string)
| StopIteration.

Inductive result (A : Type) : Type :=
| Ok (a : A)
| Raise (e : exn).

Arguments Ok {A} a.
Arguments Raise {A} e.

Definition bind {A B} (r : result A) (k : A -> result B) : result B :=
  match r with
  | Ok a => k a
  | Raise e => Raise e
  end.

Definition is_ok {A} (r : result A) : bool :=
  match r with Ok _ => true | Raise _ => false end.

(** [[f(x) for x in l]]: evaluated left to right, the first exception wins. *)
Fixpoint list_comprehension {A B} (f : A -> result B) (l : list A)
  : result (list B) :=
  match l with
  | [] => Ok []
  | a :: l' =>
      bind (f a) (fun b =>
      bind (list_comprehension f l') (fun bs => Ok (b :: bs)))
  end.

(** [sum(l)] on a list of integers: starts from 0 and adds left to right. *)
Definition sum (l : list Z) : Z := fold_left Z.add l 0.

(** [int(b)] for a one-character string [b]: the decimal digits [0] to
    [9] give their value, every other character raises.  This is what
    Python does on ASCII characters, where a string here and the Python
    string have the same characters; beyond ASCII Python also accepts the
    decimal digits of other scripts, so the properties that depend on which
    characters are accepted are stated for ASCII keys. *)
Definition int_of_char (c : ascii) : result Z :=
  let n := Z.of_N (N_of_ascii c) in
  if (48 <=? n) && (n <=? 57) then Ok (n - 48) else Raise (IntValueError c).

(** [s[::-1]] *)
Definition reversed (s : string) : string :=
  string_of_list_ascii (rev (list_ascii_of_string s)).

(** [sub in s] on strings. *)
Fixpoint contains (sub s : string) : bool :=
  if String.prefix sub s then true
  else match s with
       | EmptyString => false
       | String _ s' => contains sub s'
       end.

End Py.

Import Py.

Declare Scope result_scope.
Notation "x <- r ;; k" := (Py.bind r (fun x => k))
  (at level 61, r at next level, right associativity) : result_scope.
Local Open Scope result_scope.

(* ================================================================== *)
(** ** The circuit library, as far as the program uses it *)

Module Qiskit.

(** An operation of a circuit: the three standard gates the program uses,
    the measurement, and a composite instruction, which is what
    [to_instruction()] makes of a circuit: its name, its number of qubits
    and its definition (the circuit's own list of instructions). *)
Inductive operation : Type :=
| XGate
| HGate
| CXGate
| Measure
| Instruction (name : string) (width : nat)
              (definition : list (operation * list nat * list nat)).

(** One entry of a circuit: the operation, the qubits and the classical
    bits it acts on. *)
Definition CircuitInstruction : Type := (operation * list nat * list nat)%type.

Record QuantumCircuit : Type := mkCircuit {
  name : string;
  num_qubits : nat;
  num_clbits : nat;
  data : list CircuitInstruction
}.

(** [QuantumCircuit(n, name=...)] and [QuantumCircuit(qr, cr, name=...)]. *)
Definition new_circuit (nq nc : nat) (nm : string) : QuantumCircuit :=
  mkCircuit nm nq nc [].

Definition push (qc : QuantumCircuit) (ci : CircuitInstruction)
  : QuantumCircuit :=
  mkCircuit (name qc) (num_qubits qc) (num_clbits qc) (data qc ++ [ci]).

(** An integer bit specifier indexes the register's list of bits, so it
    follows Python's list indexing: [0 .. size-1] address the bits in order,
    [-size .. -1] count from the end, anything else is the library's
    out-of-range [CircuitError]. *)
Definition bit_index (size : nat) (i : Z) : result nat :=
  let n := Z.of_nat size in
  if (0 <=? i) && (i <? n) then Ok (Z.to_nat i)
  else if (- n <=? i) && (i <? 0) then Ok (Z.to_nat (n + i))
  else Raise (CircuitError_index i size).

Definition op_width (op : operation) : nat :=
  match op with
  | XGate | HGate | Measure => 1
  | CXGate => 2
  | Instruction _ w _ => w
  end.

(** [qc.x(q)] *)
Definition x (q : Z) (qc : QuantumCircuit) : result QuantumCircuit :=
  i <- bit_index (num_qubits qc) q ;;
  Ok (push qc (XGate, [i], [])).

(** [qc.h(q)] *)
Definition h (q : Z) (qc : QuantumCircuit) : result QuantumCircuit :=
  i <- bit_index (num_qubits qc) q ;;
  Ok (push qc (HGate, [i], [])).

(** [qc.cx(c, t)]: control and target must be different qubits. *)
Definition cx (c t : Z) (qc : QuantumCircuit) : result QuantumCircuit :=
  i <- bit_index (num_qubits qc) c ;;
  j <- bit_index (num_qubits qc) t ;;
  if Nat.eqb i j then Raise CircuitError_duplicate
  else Ok (push qc (CXGate, [i; j], [])).

(** [qc.to_instruction()] *)
Definition to_instruction (qc : QuantumCircuit) : operation :=
  Instruction (name qc) (num_qubits qc) (data qc).

(** [qc.append(op, qargs)] *)
Definition append (op : operation) (qargs : list Z) (qc : QuantumCircuit)
  : result QuantumCircuit :=
  qs <- list_comprehension (bit_index (num_qubits qc)) qargs ;;
  if Nat.eqb (List.length qs) (op_width op) then Ok (push qc (op, qs, []))
  else Raise CircuitError_arity.

(** [qc.measure(qubits, clbits)] with two lists: one measurement per pair,
    in order. *)
Fixpoint measure_each (pairs : list (nat * nat)) (qc : QuantumCircuit)
  : QuantumCircuit :=
  match pairs with
  | [] => qc
  | (q, c) :: rest => measure_each rest (push qc (Measure, [q], [c]))
  end.

Definition measure (qubits clbits : list Z) (qc : QuantumCircuit)
  : result QuantumCircuit :=
  qs <- list_comprehension (bit_index (num_qubits qc)) qubits ;;
  cs <- list_comprehension (bit_index (num_clbits qc)) clbits ;;
  if Nat.eqb (List.length qs) (List.length cs)
  then Ok (measure_each (combine qs cs) qc)
  else Raise CircuitError_arity.

(** Inlining of composite instructions: the primitive operations of an
    entry, with the qubits and classical bits of a definition mapped through
    the entry's own arguments. *)
Fixpoint flatten_op (op : operation) (qargs cargs : list nat)
  : list CircuitInstruction :=
  match op with
  | Instruction _ _ definition =>
      (fix go (l : list (operation * list nat * list nat))
         : list CircuitInstruction :=
         match l with
         | [] => []
         | (o, qs, cs) :: l' =>
             flatten_op o (map (fun k => nth k qargs 0%nat) qs)
                          (map (fun k => nth k cargs 0%nat) cs)
             ++ go l'
         end) definition
  | _ => [(op, qargs, cargs)]
  end.

Definition decompose (qc : QuantumCircuit) : list CircuitInstruction :=
  flat_map (fun ci : CircuitInstruction =>
              let '(op, qs, cs) := ci in flatten_op op qs cs) (data qc).

End Qiskit.

(* ================================================================== *)
(** ** The ideal simulator: exact outcome distributions *)

Module Simulator.

Import Qiskit.

(** Amplitudes of the gate set X, H, CX are real numbers of the form
    [rat + irr * sqrt 2] with rational [rat] and [irr]; both components are
    kept in lowest terms, so that equal amplitudes are equal terms. *)
Record amp : Type := mkAmp { rat : Q; irr : Q }.

Definition amp_zero : amp := mkAmp 0 0.
Definition amp_one : amp := mkAmp 1 0.

Definition amp_add (a b : amp) : amp :=
  mkAmp (Qred (rat a + rat b)) (Qred (irr a + irr b)).

Definition amp_sub (a b : amp) : amp :=
  mkAmp (Qred (rat a - rat b)) (Qred (irr a - irr b)).

(** [(r + i sqrt 2) / sqrt 2 = i + (r / 2) sqrt 2] *)
Definition amp_div_sqrt2 (a : amp) : amp :=
  mkAmp (Qred (irr a)) (Qred (rat a / 2)).

(** [(r + i sqrt 2)^2 = (r^2 + 2 i^2) + (2 r i) sqrt 2] *)
Definition amp_square (a : amp) : amp :=
  mkAmp (Qred (rat a * rat a + 2 * (irr a * irr a)))
        (Qred (2 * (rat a * irr a))).

(** A state vector on [n] qubits lists the [2^n] amplitudes of the basis
    states; bit [q] of the position is the value of qubit [q]. *)
Definition statevector : Type := list amp.

Definition positions (n : nat) : list N := map N.of_nat (seq 0 (2 ^ n)).

Definition at_pos (v : statevector) (i : N) : amp := nth (N.to_nat i) v amp_zero.

Definition bit_of (q : nat) (i : N) : bool := N.testbit i (N.of_nat q).

Definition flip_bit (q : nat) (i : N) : N := N.lxor i (N.shiftl 1 (N.of_nat q)).

Definition basis_state (n : nat) (k : N) : statevector :=
  map (fun i => if N.eqb i k then amp_one else amp_zero) (positions n).

Definition apply_x (n q : nat) (v : statevector) : statevector :=
  map (fun i => at_pos v (flip_bit q i)) (positions n).

Definition apply_cx (n c t : nat) (v : statevector) : statevector :=
  map (fun i => at_pos v (if bit_of c i then flip_bit t i else i)) (positions n).

Definition apply_h (n q : nat) (v : statevector) : statevector :=
  map (fun i =>
         if bit_of q i
         then amp_div_sqrt2 (amp_sub (at_pos v (flip_bit q i)) (at_pos v i))
         else amp_div_sqrt2 (amp_add (at_pos v i) (at_pos v (flip_bit q i))))
      (positions n).

(** The component of [v] in which qubit [q] has the value [b]
    (not renormalised: its squared norm is the probability of reading [b]). *)
Definition project (n q : nat) (b : bool) (v : statevector) : statevector :=
  map (fun i => if Bool.eqb (bit_of q i) b then at_pos v i else amp_zero)
      (positions n).

Definition norm2 (v : statevector) : amp :=
  fold_left (fun acc a => amp_add acc (amp_square a)) v amp_zero.

(** One run of the circuit is a tree of measurement results; a branch keeps
    the classical register read so far (position [c] is classical bit [c])
    and the unnormalised state. *)
Definition branch : Type := (list bool * statevector)%type.

Fixpoint set_bit (c : nat) (b : bool) (creg : list bool) : list bool :=
  match creg, c with
  | [], _ => []
  | _ :: rest, O => b :: rest
  | b0 :: rest, S c' => b0 :: set_bit c' b rest
  end.

Definition step (n : nat) (ci : CircuitInstruction) (br : branch) : list branch :=
  let '(creg, v) := br in
  match ci with
  | (XGate, [q], _) => [(creg, apply_x n q v)]
  | (HGate, [q], _) => [(creg, apply_h n q v)]
  | (CXGate, [c; t], _) => [(creg, apply_cx n c t v)]
  | (Measure, [q], [c]) =>
      [(set_bit c false creg, project n q false v);
       (set_bit c true creg, project n q true v)]
  | _ => [br]
  end.

Fixpoint run_from (n : nat) (prog : list CircuitInstruction) (brs : list branch)
  : list branch :=
  match prog with
  | [] => brs
  | ci :: prog' => run_from n prog' (flat_map (step n ci) brs)
  end.

Definition run (qc : QuantumCircuit) : list branch :=
  run_from (num_qubits qc) (decompose qc)
           [(repeat false (num_clbits qc), basis_state (num_qubits qc) 0)].

(** The key under which the backend reports a classical register: one
    character per classical bit, the highest bit first, bit 0 last. *)
Definition key_of (creg : list bool) : string :=
  string_of_list_ascii (map (fun b : bool => if b then "1"%char else "0"%char)
                            (rev creg)).

(** The probability that one shot of [qc] is reported under [key]. *)
Definition probability (qc : QuantumCircuit) (key : string) : amp :=
  fold_left (fun acc (br : branch) =>
               if String.eqb (key_of (fst br)) key
               then amp_add acc (norm2 (snd br)) else acc)
            (run qc) amp_zero.

End Simulator.

(* ================================================================== *)
(** ** The program's circuits *)

(** [encode_bitflip]: the argument [msg_qubit_index] is never read. *)
Definition encode_bitflip (msg_qubit_index : Z) : result Qiskit.QuantumCircuit :=
  let qc := Qiskit.new_circuit 3 0 "encode" in
  qc <- Qiskit.cx 0 1 qc ;;
  qc <- Qiskit.cx 0 2 qc ;;
  Ok qc.

Definition decode_bitflip : result Qiskit.QuantumCircuit :=
  let qc := Qiskit.new_circuit 3 0 "decode" in
  qc <- Qiskit.cx 0 2 qc ;;
  qc <- Qiskit.cx 0 1 qc ;;
  Ok qc.

(** The preparation block of [make_circuit_with_error]: the [if]/[elif]
    chain on [state_prep]. *)
Definition prepare_logical (state_prep : string) (qc : Qiskit.QuantumCircuit)
  : result Qiskit.QuantumCircuit :=
  if String.eqb state_prep "zero" then Ok qc
  else if String.eqb state_prep "one" then Qiskit.x 0 qc
  else if String.eqb state_prep "plus" then Qiskit.h 0 qc
  else Raise (ValueError "state_prep not in ['zero','one','plus']").

Definition make_circuit_with_error (state_prep : string) (error_on : Z)
  : result Qiskit.QuantumCircuit :=
  let qc := Qiskit.new_circuit 3 3 "3q_bitflip_demo" in
  qc <- prepare_logical state_prep qc ;;
  enc <- encode_bitflip 0 ;;
  qc <- Qiskit.append (Qiskit.to_instruction enc) [0; 1; 2] qc ;;
  qc <- Qiskit.x error_on qc ;;
  dec <- decode_bitflip ;;
  qc <- Qiskit.append (Qiskit.to_instruction dec) [0; 1; 2] qc ;;
  qc <- Qiskit.measure [0; 1; 2] [0; 1; 2] qc ;;
  Ok qc.

(* ================================================================== *)
(** ** The decoder *)

(** [majority_from_key], the function defined inside [run_demo]; it reads
    none of [run_demo]'s variables. *)
Definition majority_from_key (key : string) : result Z :=
  bits <- list_comprehension int_of_char
            (list_ascii_of_string (Py.reversed key)) ;;
  let maj := if Py.sum bits >=? 2 then 1 else 0 in
  Ok maj.

(* ================================================================== *)
(** ** The demo run *)

Module Harness.

Import Qiskit.

(** A [dict] from strings, in insertion order. *)
Definition dict (V : Type) : Type := list (string * V).

Fixpoint dict_set {V} (k : string) (v : V) (d : dict V) : dict V :=
  match d with
  | [] => [(k, v)]
  | (k', v') :: d' =>
      if String.eqb k k' then (k, v) :: d' else (k', v') :: dict_set k v d'
  end.

Fixpoint dict_get {V} (k : string) (d : dict V) : result V :=
  match d with
  | [] => Raise (KeyError k)
  | (k', v') :: d' => if String.eqb k k' then Ok v' else dict_get k d'
  end.

(** What [get_counts()] returns: measured key to number of shots. *)
Definition Counts : Type := dict Z.

(** What a run asks of the outside, in order: the backend handle, the
    executions on the backend, the plotting calls and the printed lines. *)
Inductive event : Type :=
| GetBackend (name : string)
| Execute (circ : QuantumCircuit) (shots : Z)
| Subplots (rows cols : nat) (figsize : Z * Z)
| PlotHistogram (ax : nat) (counts : Counts)
| SetTitle (ax : nat) (title : string)
| TightLayout
| ShowFigure
| PrintStr (s : string)
| PrintCounts (counts : Counts).

Definition trace : Type := list event.

(** A computation extends the trace and returns a value or raises; the
    trace up to an exception is kept. *)
Definition io (A : Type) : Type := trace -> result A * trace.

Definition ret {A} (a : A) : io A := fun tr => (Ok a, tr).

Definition io_bind {A B} (m : io A) (k : A -> io B) : io B :=
  fun tr =>
    match m tr with
    | (Ok a, tr') => k a tr'
    | (Raise e, tr') => (Raise e, tr')
    end.

Definition lift {A} (r : result A) : io A := fun tr => (r, tr).

Declare Scope io_scope.
Notation "x <- m ;; k" := (io_bind m (fun x => k))
  (at level 61, m at next level, right associativity) : io_scope.
Notation "m ;;; k" := (io_bind m (fun _ => k))
  (at level 61, right associativity) : io_scope.

Local Open Scope io_scope.

(** [for a in l: body], with the variables the body may assign threaded
    through as [s]. *)
Fixpoint for_each {A S} (l : list A) (body : A -> S -> io S) (s : S) : io S :=
  match l with
  | [] => ret s
  | a :: l' => s' <- body a s ;; for_each l' body s'
  end.

(** The variables of [run_demo] that are alive when it returns. *)
Record locals : Type := mkLocals {
  histograms : dict Counts;
  counts_plus : Counts;
  total : Z;
  correct : Z
}.

Section WithBackend.

(** The outside of the program.  [backend] is
    [execute(circ, backend=backend, shots=shots).result().get_counts()];
    [library] is every other call into a library ([Aer.get_backend], the
    plotting functions, [print]): it returns or raises, as the library
    decides.  A call is on the trace whether it returns or raises. *)
Variable backend : QuantumCircuit -> Z -> result Counts.
Variable library : event -> result unit.

Definition execute_counts (circ : QuantumCircuit) (shots : Z) : io Counts :=
  fun tr => (backend circ shots, tr ++ [Execute circ shots]).

Definition call (ev : event) : io unit :=
  fun tr => (library ev, tr ++ [ev]).

Definition run_demo (shots : Z) : io locals :=
  call (GetBackend "qasm_simulator") ;;;
  let states := ["zero"; "one"; "plus"] in
  histograms <-
    for_each states (fun s histograms =>
      circ <- lift (make_circuit_with_error s 1) ;;
      counts <- execute_counts circ shots ;;
      ret (dict_set s counts histograms)) [] ;;
  call (Subplots 1 3 (12, 3)) ;;;
  let axs := [0%nat; 1%nat; 2%nat] in
  _ <- for_each (combine axs states) (fun '(ax, s) (_ : unit) =>
      counts <- lift (dict_get s histograms) ;;
      call (PlotHistogram ax counts) ;;;
      call (SetTitle ax ("Input |" ++ s ++ "> with X on qubit 1"))) tt ;;
  call TightLayout ;;;
  call ShowFigure ;;;
  counts_plus <- lift (dict_get "plus" histograms) ;;
  let total := Py.sum (map snd counts_plus) in
  let correct := 0 in
  correct <- for_each counts_plus (fun '(key, n) correct => ret correct) correct ;;
  call (PrintStr "Raw counts for |+> (Z-basis measurement):") ;;;
  call (PrintCounts counts_plus) ;;;
  ret (mkLocals histograms counts_plus total correct).

End WithBackend.

End Harness.

(* ================================================================== *)
(** ** Vocabulary of the properties *)

(** The logical bit a preparation label stands for; ["plus"] has none. *)
Definition logical_bit (state_prep : string) : option Z :=
  if String.eqb state_prep "zero" then Some 0
  else if String.eqb state_prep "one" then Some 1
  else None.

Definition is_bit (c : ascii) : bool :=
  Ascii.eqb c "0" || Ascii.eqb c "1".

(** A measured outcome: every character is [0] or [1]. *)
Definition is_bitstring (key : string) : bool :=
  forallb is_bit (list_ascii_of_string key).

Definition bit_value (c : ascii) : Z := if Ascii.eqb c "1" then 1 else 0.

Definition ones (l : list ascii) : Z :=
  Z.of_nat (count_occ ascii_dec l "1"%char).

(** The number of 1-bits of an outcome. *)
Definition count_ones (key : string) : Z := ones (list_ascii_of_string key).

(** The number of bits of an outcome. *)
Definition width (key : string) : Z := Z.of_nat (String.length key).

(** The vote as the specification words it: 1 when the number of 1-bits is
    strictly greater than half the width, 0 otherwise. *)
Definition strict_majority (key : string) : Z :=
  if 2 * count_ones key >? width key then 1 else 0.

(** The vote as the program computes it on outcomes: 1 from two 1-bits on. *)
Definition two_or_more (key : string) : Z :=
  if count_ones key >=? 2 then 1 else 0.

(** The number of positions in which two outcomes differ. *)
Fixpoint differences (k1 k2 : list ascii) : Z :=
  match k1, k2 with
  | c1 :: r1, c2 :: r2 =>
      (if Ascii.eqb c1 c2 then 0 else 1) + differences r1 r2
  | _, _ => 0
  end.

Definition hamming (k1 k2 : string) : Z :=
  differences (list_ascii_of_string k1) (list_ascii_of_string k2).

(** The codeword of a logical bit on three qubits. *)
Definition codeword (bit : Z) : string :=
  if bit =? 0 then "000" else "111".

(** The circuit of [make_circuit_with_error] with a list of bit-flips
    between the encoding and the decoding in place of the single one:
    [make_circuit_with_error s e] is [circuit_with_faults s [e]]
    (lemma [make_circuit_with_error_one_fault]); the empty list is the
    fault-free round trip. *)
Fixpoint inject_all (faults : list Z) (qc : Qiskit.QuantumCircuit)
  : result Qiskit.QuantumCircuit :=
  match faults with
  | [] => Ok qc
  | q :: rest => qc <- Qiskit.x q qc ;; inject_all rest qc
  end.

Definition circuit_with_faults (state_prep : string) (faults : list Z)
  : result Qiskit.QuantumCircuit :=
  let qc := Qiskit.new_circuit 3 3 "3q_bitflip_demo" in
  qc <- prepare_logical state_prep qc ;;
  enc <- encode_bitflip 0 ;;
  qc <- Qiskit.append (Qiskit.to_instruction enc) [0; 1; 2] qc ;;
  qc <- inject_all faults qc ;;
  dec <- decode_bitflip ;;
  qc <- Qiskit.append (Qiskit.to_instruction dec) [0; 1; 2] qc ;;
  qc <- Qiskit.measure [0; 1; 2] [0; 1; 2] qc ;;
  Ok qc.

(** The preparation alone, measured: what was "initially prepared". *)
Definition prepared_only (state_prep : string) : result Qiskit.QuantumCircuit :=
  let qc := Qiskit.new_circuit 3 3 "3q_bitflip_demo" in
  qc <- prepare_logical state_prep qc ;;
  qc <- Qiskit.measure [0; 1; 2] [0; 1; 2] qc ;;
  Ok qc.

(** The pieces of the circuit that [make_circuit_with_error] assembles:
    the empty 3-qubit circuit it starts from, the two composite entries made
    from [encode_bitflip] and [decode_bitflip], and the final measurements. *)
Definition base_circuit : Qiskit.QuantumCircuit :=
  Qiskit.new_circuit 3 3 "3q_bitflip_demo".

Definition cx01 : Qiskit.CircuitInstruction := (Qiskit.CXGate, [0%nat; 1%nat], []).
Definition cx02 : Qiskit.CircuitInstruction := (Qiskit.CXGate, [0%nat; 2%nat], []).

Definition encode_entry : Qiskit.CircuitInstruction :=
  (Qiskit.Instruction "encode" 3 [cx01; cx02], [0%nat; 1%nat; 2%nat], []).

Definition decode_entry : Qiskit.CircuitInstruction :=
  (Qiskit.Instruction "decode" 3 [cx02; cx01], [0%nat; 1%nat; 2%nat], []).

Definition measurements : list Qiskit.CircuitInstruction :=
  [(Qiskit.Measure, [0%nat], [0%nat]); (Qiskit.Measure, [1%nat], [1%nat]);
   (Qiskit.Measure, [2%nat], [2%nat])].

(** The text of the [ValueError] raised for an unknown label. *)
Definition state_prep_message : string :=
  "state_prep not in ['zero','one','plus']".

(** The circuit [run_demo] submits for a label: the gates of the
    preparation, then the encoding, the X on qubit 1, the decoding and the
    measurements. *)
Definition demo_circuit (preparation : list Qiskit.CircuitInstruction)
  : Qiskit.QuantumCircuit :=
  Qiskit.mkCircuit "3q_bitflip_demo" 3 3
    (preparation
     ++ [encode_entry; (Qiskit.XGate, [1%nat], []); decode_entry]
     ++ measurements).

(** The lines a run printed, in order. *)
Definition printed (tr : Harness.trace) : list Harness.event :=
  filter (fun ev => match ev with
                    | Harness.PrintStr _ | Harness.PrintCounts _ => true
                    | _ => false
                    end) tr.

(** A decimal digit [0] to [9], and its value. *)
Definition is_digit (c : ascii) : bool :=
  let n := Z.of_N (N_of_ascii c) in (48 <=? n) && (n <=? 57).

Definition digit_value (c : ascii) : Z := Z.of_N (N_of_ascii c) - 48.

Definition all_digits (key : string) : bool :=
  forallb is_digit (list_ascii_of_string key).

Definition digit_sum (key : string) : Z :=
  fold_right (fun c acc => digit_value c + acc) 0 (list_ascii_of_string key).

(** The outcome with every bit flipped. *)
Definition complement (key : string) : string :=
  string_of_list_ascii
    (map (fun c => if Ascii.eqb c "1" then "0"%char else "1"%char)
         (list_ascii_of_string key)).

(** The eight outcomes of three classical bits. *)
Definition three_bit_keys : list string :=
  ["000"; "001"; "010"; "011"; "100"; "101"; "110"; "111"].

(** The branches of a circuit as reported: key and weight of each. *)
Definition distribution (qc : Qiskit.QuantumCircuit)
  : list (string * Simulator.amp) :=
  map (fun br : Simulator.branch =>
         (Simulator.key_of (fst br), Simulator.norm2 (snd br)))
      (Simulator.run qc).

(** The probability of reading any of the eight 3-bit outcomes. *)
Definition total_probability (qc : Qiskit.QuantumCircuit) : Simulator.amp :=
  fold_left Simulator.amp_add
            (map (Simulator.probability qc) three_bit_keys) Simulator.amp_zero.

Definition one_half : Simulator.amp := Simulator.mkAmp (1 # 2) 0.

(** The outcome of the single-fault circuit on a basis state: prepared bit
    [b], bit-flip on qubit [e].  Classical bit 0 is [b], flipped when the
    fault hit qubit 0; bits 1 and 2 are both set except the one facing the
    faulty qubit 2 or 1. *)
Definition faulty_outcome (b : bool) (e : Z) : string :=
  Simulator.key_of [xorb b (e =? 0); negb (e =? 2); negb (e =? 1)].

(** The plotting calls of a run, in order. *)
Definition plotting (tr : Harness.trace) : list Harness.event :=
  filter (fun ev => match ev with
                    | Harness.Subplots _ _ _
                    | Harness.PlotHistogram _ _ | Harness.SetTitle _ _
                    | Harness.TightLayout | Harness.ShowFigure => true
                    | _ => false
                    end) tr.

(** The labels the preparation knows. *)
Definition known_label (s : string) : bool :=
  String.eqb s "zero" || String.eqb s "one" || String.eqb s "plus".

(** The circuit for a preparation and a faulty qubit: [demo_circuit] with
    the X gate on qubit [q]. *)
Definition fault_circuit (preparation : list Qiskit.CircuitInstruction)
  (q : nat) : Qiskit.QuantumCircuit :=
  Qiskit.mkCircuit "3q_bitflip_demo" 3 3
    (preparation
     ++ [encode_entry; (Qiskit.XGate, [q], []); decode_entry]
     ++ measurements).

(** The three preparations: nothing, X on qubit 0, H on qubit 0. *)
Definition preparations : list (list Qiskit.CircuitInstruction) :=
  [[]; [(Qiskit.XGate, [0%nat], [])]; [(Qiskit.HGate, [0%nat], [])]].

(** A gate entry of an inlined circuit: no measurement, no composite, and
    every qubit among the three of the register. *)
Definition gate_on_register (ci : Qiskit.CircuitInstruction) : bool :=
  match ci with
  | (Qiskit.Measure, _, _) | (Qiskit.Instruction _ _ _, _, _) => false
  | (_, qs, _) => forallb (fun q => (q <? 3)%nat) qs
  end.

Definition is_cnot (ci : Qiskit.CircuitInstruction) : bool :=
  match ci with
  | (Qiskit.CXGate, _, _) => true
  | _ => false
  end.

(** A backend for examples: it is down for a circuit that starts with an
    X gate (the ["one"] circuit of the demo) and reports all shots under
    010 for any other. *)
Definition down_for_one (c : Qiskit.QuantumCircuit) (shots : Z)
  : result Harness.Counts :=
  match Qiskit.data c with
  | (Qiskit.XGate, _, _) :: _ => Raise (BackendError "down")
  | _ => Ok [("010", shots)]
  end.


(** A backend for examples that reports half of the shots under 010 and
    half under 011. *)
Definition two_outcomes (c : Qiskit.QuantumCircuit) (shots : Z)
  : result Harness.Counts :=
  Ok [("010", shots / 2); ("011", shots - shots / 2)].

(** A library for examples in which every call returns. *)
Definition obliging (ev : Harness.event) : result unit := Ok tt.

(** A library for examples that cannot plot an empty distribution. *)
Definition no_empty_plot (ev : Harness.event) : result unit :=
  match ev with
  | Harness.PlotHistogram _ [] => Raise StopIteration
  | _ => Ok tt
  end.

(** The answer of the outside to a call of a run: the backend for an
    execution, the library for everything else. *)
Definition outside (backend : Qiskit.QuantumCircuit -> Z -> result Harness.Counts)
  (library : Harness.event -> result unit) (ev : Harness.event)
  : result unit :=
  match ev with
  | Harness.Execute c shots =>
      match backend c shots with
      | Ok _ => Ok tt
      | Raise e => Raise e
      end
  | _ => library ev
  end.

(** The distribution the backend answers with, empty if it raises. *)
Definition counts_of (backend : Qiskit.QuantumCircuit -> Z -> result Harness.Counts)
  (c : Qiskit.QuantumCircuit) (shots : Z) : Harness.Counts :=
  match backend c shots with
  | Ok counts => counts
  | Raise _ => []
  end.

(** The calls of a run of [run_demo] that nothing interrupts, in order;
    lemma [run_demo_plays_script] ties the run to this list. *)
Definition script (backend : Qiskit.QuantumCircuit -> Z -> result Harness.Counts)
  (shots : Z) : list Harness.event :=
  let qz := demo_circuit [] in
  let qo := demo_circuit [(Qiskit.XGate, [0%nat], [])] in
  let qp := demo_circuit [(Qiskit.HGate, [0%nat], [])] in
  [Harness.GetBackend "qasm_simulator";
   Harness.Execute qz shots; Harness.Execute qo shots;
   Harness.Execute qp shots;
   Harness.Subplots 1 3 (12, 3);
   Harness.PlotHistogram 0 (counts_of backend qz shots);
   Harness.SetTitle 0 "Input |zero> with X on qubit 1";
   Harness.PlotHistogram 1 (counts_of backend qo shots);
   Harness.SetTitle 1 "Input |one> with X on qubit 1";
   Harness.PlotHistogram 2 (counts_of backend qp shots);
   Harness.SetTitle 2 "Input |plus> with X on qubit 1";
   Harness.TightLayout; Harness.ShowFigure;
   Harness.PrintStr "Raw counts for |+> (Z-basis measurement):";
   Harness.PrintCounts (counts_of backend qp shots)].

(** Making the calls of a list one after the other, up to the first that
    raises: the exception, if any, and the calls made. *)
Fixpoint play (answer : Harness.event -> result unit)
  (calls : list Harness.event) (made : Harness.trace)
  : option exn * Harness.trace :=
  match calls with
  | [] => (None, made)
  | ev :: rest =>
      match answer ev with
      | Ok _ => play answer rest (made ++ [ev])
      | Raise e => (Some e, made ++ [ev])
      end
  end.

(** What [run_demo] holds when it returns. *)
Definition final_locals
  (backend : Qiskit.QuantumCircuit -> Z -> result Harness.Counts) (shots : Z)
  : Harness.locals :=
  let cz := counts_of backend (demo_circuit []) shots in
  let co := counts_of backend (demo_circuit [(Qiskit.XGate, [0%nat], [])]) shots in
  let cp := counts_of backend (demo_circuit [(Qiskit.HGate, [0%nat], [])]) shots in
  Harness.mkLocals [("zero", cz); ("one", co); ("plus", cp)] cp
                   (Py.sum (map snd cp)) 0.

(** ASCII characters and keys. *)
Definition is_ascii_char (c : ascii) : bool := (N_of_ascii c <? 128)%N.

Definition ascii_only (key : string) : bool :=
  forallb is_ascii_char (list_ascii_of_string key).

(* ================================================================== *)
(** ** The decoder: what [majority_from_key] computes *)

Section Decoder.

Lemma sum_from (l : list Z) (a : Z) : fold_left Z.add l a = a + Py.sum l.
Proof.
  unfold Py.sum. revert a.
  induction l as [|b l IH]; intro a; simpl.
  - lia.
  - rewrite (IH (a + b)), (IH b). lia.
Qed.

Lemma sum_cons (b : Z) (l : list Z) : Py.sum (b :: l) = b + Py.sum l.
Proof. unfold Py.sum at 1. simpl. apply sum_from. Qed.

Lemma int_of_bit (c : ascii) :
  is_bit c = true -> int_of_char c = Ok (bit_value c).
Proof.
  unfold is_bit. intro H. apply orb_true_iff in H.
  destruct H as [H|H]; apply Ascii.eqb_eq in H; subst c; reflexivity.
Qed.

Lemma ints_of_bits (l : list ascii) :
  forallb is_bit l = true ->
  list_comprehension int_of_char l = Ok (map bit_value l).
Proof.
  induction l as [|c l IH]; simpl; intro H.
  - reflexivity.
  - apply andb_true_iff in H. destruct H as [Hc Hl].
    rewrite (int_of_bit c Hc). simpl. rewrite (IH Hl). reflexivity.
Qed.

Lemma sum_bit_values (l : list ascii) : Py.sum (map bit_value l) = ones l.
Proof.
  unfold ones. induction l as [|c l IH].
  - reflexivity.
  - cbn [map]. rewrite sum_cons, IH. cbn [count_occ]. unfold bit_value.
    destruct (ascii_dec c "1") as [E|E].
    + subst c. rewrite Nat2Z.inj_succ.
      change (Ascii.eqb "1" "1") with true. cbv iota. lia.
    + destruct (Ascii.eqb c "1") eqn:Eb.
      * apply Ascii.eqb_eq in Eb. contradiction.
      * lia.
Qed.

Lemma forallb_rev {A} (f : A -> bool) (l : list A) :
  forallb f (rev l) = forallb f l.
Proof.
  induction l as [|a l IH]; simpl.
  - reflexivity.
  - rewrite forallb_app, IH. simpl. rewrite andb_true_r. apply andb_comm.
Qed.

Lemma ones_rev (l : list ascii) : ones (rev l) = ones l.
Proof. unfold ones. now rewrite count_occ_rev. Qed.

Lemma chars_reversed (key : string) :
  list_ascii_of_string (Py.reversed key) = rev (list_ascii_of_string key).
Proof. unfold Py.reversed. apply list_ascii_of_string_of_list_ascii. Qed.

Lemma is_bitstring_reversed (key : string) :
  is_bitstring (Py.reversed key) = is_bitstring key.
Proof. unfold is_bitstring. rewrite chars_reversed. apply forallb_rev. Qed.

Lemma count_ones_reversed (key : string) :
  count_ones (Py.reversed key) = count_ones key.
Proof. unfold count_ones. rewrite chars_reversed. apply ones_rev. Qed.

(** On an outcome of any width the vote is 1 exactly from two 1-bits on. *)
Lemma majority_from_key_bits (key : string) :
  is_bitstring key = true -> majority_from_key key = Ok (two_or_more key).
Proof.
  intro H. unfold majority_from_key.
  rewrite ints_of_bits by (now rewrite <- is_bitstring_reversed in H).
  simpl. rewrite sum_bit_values.
  fold (count_ones (Py.reversed key)). rewrite count_ones_reversed.
  reflexivity.
Qed.

Lemma ones_bounds (l : list ascii) : 0 <= ones l <= Z.of_nat (List.length l).
Proof.
  unfold ones. induction l as [|c l IH]; cbn [count_occ List.length].
  - lia.
  - destruct (ascii_dec c "1"); rewrite ?Nat2Z.inj_succ; lia.
Qed.

Lemma length_chars (key : string) :
  List.length (list_ascii_of_string key) = String.length key.
Proof. induction key as [|c key IH]; simpl; congruence. Qed.

Lemma permuted_bits (l l' : list ascii) :
  Permutation l l' -> forallb is_bit l = true -> forallb is_bit l' = true.
Proof.
  intros P H. apply forallb_forall. intros c Hc.
  apply (proj1 (forallb_forall is_bit l) H).
  apply Permutation_in with (l := l'); [now apply Permutation_sym | exact Hc].
Qed.

End Decoder.

(** C3, as the program has it: on a 3-bit outcome [majority_from_key]
    returns 1 when the number of 1-bits is strictly greater than half the
    width and 0 otherwise; the threshold is the constant two, so on an
    outcome of any width it returns 1 exactly when at least two bits are 1.
    It is a function of the key alone. *)
Theorem majority_from_key_three_bits :
  (forall key, is_bitstring key = true -> width key = 3 ->
     majority_from_key key = Ok (strict_majority key)) /\
  (forall key, is_bitstring key = true ->
     majority_from_key key = Ok (two_or_more key)).
Proof.
  split.
  - intros key Hb Hw. rewrite (majority_from_key_bits key Hb). f_equal.
    unfold strict_majority, two_or_more. rewrite Hw.
    destruct (count_ones key >=? 2) eqn:E1;
      destruct (2 * count_ones key >? 3) eqn:E2; try reflexivity; lia.
  - exact majority_from_key_bits.
Qed.

Lemma majority_from_key_three_bits_witness :
  majority_from_key "101" = Ok (strict_majority "101") /\
  majority_from_key "0100" = Ok (two_or_more "0100").
Proof.
  split.
  - apply (proj1 majority_from_key_three_bits "101"); reflexivity.
  - apply (proj2 majority_from_key_three_bits "0100"); reflexivity.
Defined.

(** C3 as stated fails on odd widths other than three: the 5-bit outcome
    11000 has two 1-bits, fewer than half of five, and is voted 1. *)
Lemma majority_five_bits_counterexample :
  is_bitstring "11000" = true /\
  Z.odd (width "11000") = true /\
  strict_majority "11000" = 0 /\
  majority_from_key "11000" = Ok 1.
Proof. repeat split. Qed.

(** C4, as the program has it: an even-length outcome is not rejected;
    [majority_from_key] returns a bit for it, 1 exactly when at least two
    of its bits are 1. *)
Theorem majority_from_key_even_width :
  forall key, is_bitstring key = true -> Z.even (width key) = true ->
    majority_from_key key = Ok (two_or_more key) /\
    (two_or_more key = 0 \/ two_or_more key = 1).
Proof.
  intros key Hb _. split.
  - exact (majority_from_key_bits key Hb).
  - unfold two_or_more. destruct (count_ones key >=? 2); auto.
Qed.

Lemma majority_from_key_even_width_witness :
  majority_from_key "0011" = Ok (two_or_more "0011") /\
  (two_or_more "0011" = 0 \/ two_or_more "0011" = 1).
Proof. apply (majority_from_key_even_width "0011"); reflexivity. Defined.

(** C4 as stated fails: the 4-bit outcome 0011 is voted 1, no exception. *)
Lemma majority_four_bits_counterexample :
  is_bitstring "0011" = true /\
  Z.even (width "0011") = true /\
  majority_from_key "0011" = Ok 1.
Proof. repeat split. Qed.

(** C10: on measured outcomes the vote does not depend on the order of the
    bits: reversing the key, or permuting its characters in any way, leaves
    the result of [majority_from_key] unchanged. *)
Theorem majority_from_key_order_invariant :
  (forall key, is_bitstring key = true ->
     majority_from_key (Py.reversed key) = majority_from_key key) /\
  (forall key key', is_bitstring key = true ->
     Permutation (list_ascii_of_string key) (list_ascii_of_string key') ->
     majority_from_key key' = majority_from_key key).
Proof.
  split.
  - intros key Hb.
    rewrite (majority_from_key_bits key Hb).
    rewrite majority_from_key_bits by (now rewrite is_bitstring_reversed).
    unfold two_or_more. now rewrite count_ones_reversed.
  - intros key key' Hb P.
    rewrite (majority_from_key_bits key Hb).
    rewrite majority_from_key_bits
      by (unfold is_bitstring in *; eapply permuted_bits; eauto).
    unfold two_or_more, count_ones, ones.
    now rewrite (proj1 (Permutation_count_occ ascii_dec _ _) P "1"%char).
Qed.

Lemma majority_from_key_order_invariant_witness :
  majority_from_key (Py.reversed "011") = majority_from_key "011" /\
  majority_from_key "101" = majority_from_key "011".
Proof.
  split.
  - apply (proj1 majority_from_key_order_invariant "011"). reflexivity.
  - apply (proj2 majority_from_key_order_invariant "011" "101").
    + reflexivity.
    + simpl. apply perm_swap.
Defined.

(* ================================================================== *)
(** ** The circuits *)

Section Circuits.

Import Qiskit.

Lemma bind_ok {A} (r : result A) : (a <- r ;; Ok a) = r.
Proof. destruct r; reflexivity. Qed.

(** The single-fault circuit is the one-element case of the fault list. *)
Lemma make_circuit_with_error_one_fault (s : string) (e : Z) :
  make_circuit_with_error s e = circuit_with_faults s [e].
Proof.
  unfold make_circuit_with_error, circuit_with_faults.
  destruct (prepare_logical s _) as [qc|]; [|reflexivity]. cbn [Py.bind].
  destruct (encode_bitflip 0) as [enc|]; [|reflexivity]. cbn [Py.bind].
  destruct (append _ _ qc) as [qc1|]; [|reflexivity]. cbn [Py.bind inject_all].
  destruct (x e qc1) as [qc2|]; reflexivity.
Qed.

(** The labels the preparation accepts, and what it yields for each. *)
Lemma prepare_logical_inv (s : string) (prep : QuantumCircuit) :
  prepare_logical s base_circuit = Ok prep ->
  (s = "zero" /\ prep = base_circuit) \/
  (s = "one" /\ prep = push base_circuit (XGate, [0%nat], [])) \/
  (s = "plus" /\ prep = push base_circuit (HGate, [0%nat], [])).
Proof.
  unfold prepare_logical.
  destruct (String.eqb_spec s "zero") as [->|_].
  { intro H. injection H as <-. auto. }
  destruct (String.eqb_spec s "one") as [->|_].
  { intro H. vm_compute in H. injection H as <-. auto. }
  destruct (String.eqb_spec s "plus") as [->|_].
  { intro H. vm_compute in H. injection H as <-. auto. }
  discriminate.
Qed.

Lemma bit_index_in_range (e : Z) :
  -3 <= e < 3 -> bit_index 3 e = Ok (Z.to_nat (e mod 3)).
Proof.
  intro H.
  assert (e = -3 \/ e = -2 \/ e = -1 \/ e = 0 \/ e = 1 \/ e = 2) as C by lia.
  repeat (destruct C as [->|C]; [reflexivity|]). subst e. reflexivity.
Qed.

Lemma bit_index_out_of_range (e : Z) :
  e < -3 \/ 3 <= e -> bit_index 3 e = Raise (CircuitError_index e 3).
Proof.
  intro H. unfold bit_index. cbv zeta.
  change (Z.of_nat 3) with 3.
  repeat match goal with
         | |- context [?a <=? ?b] => destruct (Z.leb_spec a b)
         | |- context [?a <? ?b] => destruct (Z.ltb_spec a b)
         end; cbn [andb]; try reflexivity; lia.
Qed.

(** C5, as the program has it: the preparation adds nothing for ["zero"],
    one X gate on qubit 0 for ["one"] and one H gate on qubit 0 for
    ["plus"]; any other label raises a [ValueError], before the error
    qubit is looked at, whose message is a fixed text: it names the
    parameter and the three allowed labels, not the value received. *)
Theorem prepare_logical_cases :
  prepare_logical "zero" base_circuit = Ok base_circuit /\
  prepare_logical "one" base_circuit
    = Ok (push base_circuit (XGate, [0%nat], [])) /\
  prepare_logical "plus" base_circuit
    = Ok (push base_circuit (HGate, [0%nat], [])) /\
  (forall s e, s <> "zero" -> s <> "one" -> s <> "plus" ->
     prepare_logical s base_circuit = Raise (ValueError state_prep_message) /\
     make_circuit_with_error s e = Raise (ValueError state_prep_message)) /\
  contains "'zero'" state_prep_message = true /\
  contains "'one'" state_prep_message = true /\
  contains "'plus'" state_prep_message = true.
Proof.
  repeat split; try reflexivity.
  - unfold prepare_logical.
    destruct (String.eqb_spec s "zero"); [contradiction|].
    destruct (String.eqb_spec s "one"); [contradiction|].
    destruct (String.eqb_spec s "plus"); [contradiction|]. reflexivity.
  - unfold make_circuit_with_error, prepare_logical.
    destruct (String.eqb_spec s "zero"); [contradiction|].
    destruct (String.eqb_spec s "one"); [contradiction|].
    destruct (String.eqb_spec s "plus"); [contradiction|]. reflexivity.
Qed.

Lemma prepare_logical_cases_witness :
  prepare_logical "Zero" base_circuit = Raise (ValueError state_prep_message) /\
  make_circuit_with_error "Zero" 1 = Raise (ValueError state_prep_message).
Proof.
  apply (proj1 (proj2 (proj2 (proj2 prepare_logical_cases))) "Zero" 1);
    discriminate.
Defined.

(** C5 as stated fails: for the label ["invalid"] the message of the
    exception does not contain the offending value. *)
Lemma prepare_logical_message_counterexample :
  exists msg,
    prepare_logical "invalid" base_circuit = Raise (ValueError msg) /\
    contains "invalid" msg = false.
Proof. exists state_prep_message. split; reflexivity. Qed.

(** C6, as the program has it: for an accepted label the fault is one X
    gate, placed after the encoding entry and before the decoding entry
    (in the inlined circuit: after both encoding CNOTs, before both decoding
    ones).  The index is resolved as a list index: [0 <= e < 3] addresses
    qubit [e], [-3 <= e < 0] addresses qubit [3 + e], and every other index
    raises the library's out-of-range error. *)
Theorem injection_position_and_range :
  forall s e prep,
    prepare_logical s base_circuit = Ok prep ->
    (-3 <= e < 3 ->
       exists qc,
         make_circuit_with_error s e = Ok qc /\
         data qc = data prep
                   ++ [encode_entry; (XGate, [Z.to_nat (e mod 3)], []);
                       decode_entry]
                   ++ measurements /\
         decompose qc = data prep
                        ++ [cx01; cx02] ++ [(XGate, [Z.to_nat (e mod 3)], [])]
                        ++ [cx02; cx01] ++ measurements) /\
    (0 <= e < 3 -> e mod 3 = e) /\
    (-3 <= e < 0 -> e mod 3 = 3 + e) /\
    (e < -3 \/ 3 <= e ->
       make_circuit_with_error s e = Raise (CircuitError_index e 3)).
Proof.
  intros s e prep Hprep.
  assert (Hshape : num_qubits prep = 3%nat /\ num_clbits prep = 3%nat /\
                   decompose prep = data prep).
  { destruct (prepare_logical_inv s prep Hprep) as [[_ ->]|[[_ ->]|[_ ->]]];
      repeat split. }
  destruct Hshape as (Hq & Hc & Hflat).
  split; [|split; [|split]].
  - intro Hr. unfold make_circuit_with_error. fold base_circuit.
    rewrite Hprep. cbn [Py.bind].
    destruct prep as [nm nq nc d]. cbn in Hq, Hc, Hflat. subst nq nc.
    change (encode_bitflip 0)
      with (Ok (mkCircuit "encode" 3 0 [cx01; cx02])).
    change decode_bitflip
      with (Ok (mkCircuit "decode" 3 0 [cx02; cx01])).
    cbn [Py.bind]. unfold append, x, to_instruction. cbn [num_qubits].
    change (list_comprehension (bit_index 3) [0; 1; 2])
      with (Ok [0%nat; 1%nat; 2%nat]).
    cbn [Py.bind List.length op_width Nat.eqb push name num_qubits
         num_clbits data].
    rewrite (bit_index_in_range e Hr).
    generalize (Z.to_nat (e mod 3)). intro q.
    unfold measure, measurements, encode_entry, decode_entry, decompose.
    cbn -[flat_map]. unfold push. cbn [data name num_qubits num_clbits].
    eexists. split; [reflexivity|]. split.
    + rewrite <- !app_assoc. reflexivity.
    + cbn [data]. rewrite !flat_map_app, Hflat.
      rewrite <- !app_assoc. reflexivity.
  - intro Hr. apply Z.mod_small. lia.
  - intro Hr. replace e with ((3 + e) + (-1) * 3) at 1 by lia.
    rewrite Z.mod_add by lia. apply Z.mod_small. lia.
  - intro Hr. unfold make_circuit_with_error. fold base_circuit.
    rewrite Hprep. cbn [Py.bind].
    destruct prep as [nm nq nc d]. cbn in Hq, Hc. subst nq nc.
    change (encode_bitflip 0)
      with (Ok (mkCircuit "encode" 3 0 [cx01; cx02])).
    cbn [Py.bind]. unfold append, x, to_instruction. cbn [num_qubits].
    change (list_comprehension (bit_index 3) [0; 1; 2])
      with (Ok [0%nat; 1%nat; 2%nat]).
    cbn [Py.bind List.length op_width Nat.eqb push name num_qubits
         num_clbits data].
    rewrite (bit_index_out_of_range e Hr). reflexivity.
Qed.

Lemma injection_position_and_range_witness :
  (exists qc,
     make_circuit_with_error "one" 2 = Ok qc /\
     data qc = data (push base_circuit (XGate, [0%nat], []))
               ++ [encode_entry; (XGate, [Z.to_nat (2 mod 3)], []);
                   decode_entry]
               ++ measurements /\
     decompose qc = data (push base_circuit (XGate, [0%nat], []))
                    ++ [cx01; cx02] ++ [(XGate, [Z.to_nat (2 mod 3)], [])]
                    ++ [cx02; cx01] ++ measurements) /\
  make_circuit_with_error "one" 5 = Raise (CircuitError_index 5 3).
Proof.
  split.
  - apply (injection_position_and_range "one" 2
             (push base_circuit (XGate, [0%nat], [])) eq_refl). lia.
  - apply (injection_position_and_range "one" 5
             (push base_circuit (XGate, [0%nat], [])) eq_refl). lia.
Defined.

(** C6 as stated fails below the range: index -1 is outside [0, 2] and the
    injection succeeds, flipping qubit 2. *)
Lemma injection_negative_index_counterexample :
  ~ (0 <= -1 < 3) /\
  exists qc,
    make_circuit_with_error "zero" (-1) = Ok qc /\
    data qc = [encode_entry; (XGate, [2%nat], []); decode_entry]
              ++ measurements.
Proof.
  split; [lia|]. eexists. split; reflexivity.
Qed.

(** C1, at the input where the program departs from it: with ["zero"]
    prepared and the bit-flip on qubit 0, the decoding CNOTs copy the flip
    onto qubits 1 and 2; every shot reads 111 and the vote is 1, not the
    prepared bit 0. *)
Theorem fault_on_qubit_0_flips_zero :
  exists qc,
    make_circuit_with_error "zero" 0 = Ok qc /\
    Simulator.probability qc "111" = Simulator.amp_one /\
    majority_from_key "111" = Ok 1 /\
    logical_bit "zero" = Some 0.
Proof.
  eexists. split; [reflexivity|]. repeat split.
Qed.

(** The five other single-fault configurations are voted back to the
    prepared bit: any fault on qubit 1 or 2, and the fault on qubit 0 when
    ["one"] was prepared. *)
Lemma single_fault_recovered_elsewhere (s : string) (e bit : Z) :
  logical_bit s = Some bit ->
  e = 1 \/ e = 2 \/ (e = 0 /\ bit = 1) ->
  exists qc key,
    make_circuit_with_error s e = Ok qc /\
    Simulator.probability qc key = Simulator.amp_one /\
    majority_from_key key = Ok bit.
Proof.
  unfold logical_bit. intros Hs He.
  destruct (String.eqb_spec s "zero") as [->|_].
  { injection Hs as <-.
    destruct He as [->|[->|[_ ?]]]; [| |discriminate].
    - exists (mkCircuit "3q_bitflip_demo" 3 3
                ([encode_entry; (XGate, [1%nat], []); decode_entry]
                 ++ measurements)), "010".
      repeat split.
    - exists (mkCircuit "3q_bitflip_demo" 3 3
                ([encode_entry; (XGate, [2%nat], []); decode_entry]
                 ++ measurements)), "100".
      repeat split. }
  destruct (String.eqb_spec s "one") as [->|_]; [|discriminate].
  injection Hs as <-.
  destruct He as [->|[->|[-> _]]].
  - exists (mkCircuit "3q_bitflip_demo" 3 3
              ([(XGate, [0%nat], []); encode_entry; (XGate, [1%nat], []);
                decode_entry] ++ measurements)), "011".
    repeat split.
  - exists (mkCircuit "3q_bitflip_demo" 3 3
              ([(XGate, [0%nat], []); encode_entry; (XGate, [2%nat], []);
                decode_entry] ++ measurements)), "101".
    repeat split.
  - exists (mkCircuit "3q_bitflip_demo" 3 3
              ([(XGate, [0%nat], []); encode_entry; (XGate, [0%nat], []);
                decode_entry] ++ measurements)), "110".
    repeat split.
Qed.

(** C2: the decoding circuit lists the CNOTs of the encoding circuit in
    reverse order; decoding after encoding leaves every 3-qubit state as it
    was, so in particular every basis state; and with no fault injected the
    circuit prepared with ["zero"] or ["one"] is read, with probability 1,
    as the very outcome the preparation alone gives. *)
Theorem decode_reverses_encode :
  exists enc dec,
    (forall m, encode_bitflip m = Ok enc) /\
    decode_bitflip = Ok dec /\
    data enc = [cx01; cx02] /\
    data dec = rev (data enc) /\
    (forall creg a0 a1 a2 a3 a4 a5 a6 a7,
       Simulator.run_from 3 (data enc ++ data dec)
         [(creg, [a0; a1; a2; a3; a4; a5; a6; a7])]
       = [(creg, [a0; a1; a2; a3; a4; a5; a6; a7])]) /\
    (exists prepared round_trip,
       prepared_only "zero" = Ok prepared /\
       circuit_with_faults "zero" [] = Ok round_trip /\
       Simulator.probability prepared "000" = Simulator.amp_one /\
       Simulator.probability round_trip "000" = Simulator.amp_one) /\
    (exists prepared round_trip,
       prepared_only "one" = Ok prepared /\
       circuit_with_faults "one" [] = Ok round_trip /\
       Simulator.probability prepared "001" = Simulator.amp_one /\
       Simulator.probability round_trip "001" = Simulator.amp_one).
Proof.
  exists (mkCircuit "encode" 3 0 [cx01; cx02]),
         (mkCircuit "decode" 3 0 [cx02; cx01]).
  split; [reflexivity|]. split; [reflexivity|].
  split; [reflexivity|]. split; [reflexivity|].
  split; [intros; reflexivity|].
  split; eexists; eexists; (split; [reflexivity|]);
    (split; [reflexivity|]); split; vm_compute; reflexivity.
Qed.

(** C8: two simultaneous faults are beyond the code.  There is a 3-bit
    outcome at Hamming distance 2 from a codeword whose vote is the
    opposite bit (011 against 000), and there is a circuit with two bit-flips on distinct qubits (["zero"]
    prepared, flips on qubits 1 and 2) that is read as 110 on every shot
    and voted 1. *)
Theorem two_faults_flip_the_vote :
  (exists bit key,
     is_bitstring key = true /\ width key = 3 /\
     hamming key (codeword bit) = 2 /\
     majority_from_key key = Ok (1 - bit)) /\
  (exists a b qc key,
     a <> b /\
     circuit_with_faults "zero" [a; b] = Ok qc /\
     logical_bit "zero" = Some 0 /\
     Simulator.probability qc key = Simulator.amp_one /\
     hamming key (codeword 0) = 2 /\
     majority_from_key key = Ok 1).
Proof.
  split.
  - exists 0, "011". repeat split.
  - exists 1, 2. eexists. exists "110".
    split; [discriminate|]. split; [reflexivity|]. repeat split.
Qed.

End Circuits.

(* ================================================================== *)
(** ** The demo run *)

Section Demo.

Import Qiskit Harness.

Variable backend : QuantumCircuit -> Z -> result Counts.
Variable library : event -> result unit.

Lemma demo_circuits :
  make_circuit_with_error "zero" 1 = Ok (demo_circuit []) /\
  make_circuit_with_error "one" 1 = Ok (demo_circuit [(XGate, [0%nat], [])]) /\
  make_circuit_with_error "plus" 1 = Ok (demo_circuit [(HGate, [0%nat], [])]).
Proof. repeat split. Qed.

(** The last loop of [run_demo] leaves [correct] as it found it. *)
Lemma for_each_pass (counts : Counts) (correct : Z) (tr : trace) :
  for_each counts (fun '(key, n) correct => ret correct) correct tr
  = (Ok correct, tr).
Proof.
  induction counts as [|[key n] counts IH]; [reflexivity|].
  cbn [for_each]. unfold io_bind at 1. unfold ret at 1. exact IH.
Qed.

Ltac skip_last_loop :=
  match goal with
  | |- context [for_each ?l ?f ?c ?t] =>
      change (for_each l f c t)
        with (for_each l (fun '(key, n) correct => ret correct) c t);
      rewrite for_each_pass
  end.

Ltac settle_step :=
  cbn [play outside counts_of app dict_set dict_get String.eqb Ascii.eqb
       Bool.eqb String.append fst snd];
  try reflexivity.

Ltac library_answers ev :=
  destruct (library ev) as [[]|?] eqn:?; settle_step.

Ltac backend_answers c s counts :=
  destruct (backend c s) as [counts|?] eqn:?; settle_step.

(** A run makes the calls of its script, one after the other, until one
    raises; it raises what that call raised, and returns if none did. *)
Lemma run_demo_plays_script (shots : Z) :
  run_demo backend library shots []
  = match play (outside backend library) (script backend shots) [] with
    | (None, tr) => (Ok (final_locals backend shots), tr)
    | (Some e, tr) => (Raise e, tr)
    end.
Proof.
  unfold run_demo, final_locals, script, counts_of. cbv zeta.
  cbn [for_each combine].
  unfold io_bind, lift, execute_counts, call, ret.
  destruct demo_circuits as (-> & -> & ->).
  settle_step.
  library_answers (GetBackend "qasm_simulator").
  backend_answers (demo_circuit []) shots cz.
  backend_answers (demo_circuit [(XGate, [0%nat], [])]) shots co.
  backend_answers (demo_circuit [(HGate, [0%nat], [])]) shots cp.
  library_answers (Subplots 1 3 (12, 3)).
  library_answers (PlotHistogram 0 cz).
  library_answers (SetTitle 0 "Input |zero> with X on qubit 1").
  library_answers (PlotHistogram 1 co).
  library_answers (SetTitle 1 "Input |one> with X on qubit 1").
  library_answers (PlotHistogram 2 cp).
  library_answers (SetTitle 2 "Input |plus> with X on qubit 1").
  library_answers TightLayout.
  library_answers ShowFigure.
  skip_last_loop.
  library_answers (PrintStr "Raw counts for |+> (Z-basis measurement):").
  library_answers (PrintCounts cp).
Qed.

(** The calls of a list either all return, or one of them raises after
    all the earlier ones returned, and that is where the play stops. *)
Lemma play_outcome (answer : event -> result unit) (calls : list event)
  (made : trace) :
  (Forall (fun ev => answer ev = Ok tt) calls /\
   play answer calls made = (None, made ++ calls)) \/
  (exists k ev e,
     nth_error calls k = Some ev /\
     Forall (fun ev' => answer ev' = Ok tt) (firstn k calls) /\
     answer ev = Raise e /\
     play answer calls made = (Some e, made ++ firstn k calls ++ [ev])).
Proof.
  revert made. induction calls as [|c calls IH]; intro made.
  - left. split; [constructor|]. cbn. now rewrite app_nil_r.
  - cbn [play]. destruct (answer c) as [[]|e] eqn:Hc.
    + destruct (IH (made ++ [c])) as [[Hall Hp]|(k & ev & e & Hk & Hall & He & Hp)].
      * left. split; [now constructor|]. rewrite Hp, <- app_assoc. reflexivity.
      * right. exists (S k), ev, e. cbn [nth_error firstn].
        split; [exact Hk|]. split; [now constructor|]. split; [exact He|].
        rewrite Hp, <- app_assoc. reflexivity.
    + right. exists 0%nat, c, e. cbn. repeat split; auto.
Qed.

(** The two ways a run can go: to the end of its script, or up to the
    first call that raises. *)
Lemma run_demo_outcome (shots : Z) (r : result locals) (tr : trace) :
  run_demo backend library shots [] = (r, tr) ->
  (r = Ok (final_locals backend shots) /\
   tr = script backend shots /\
   Forall (fun ev => outside backend library ev = Ok tt)
          (script backend shots)) \/
  (exists k ev e,
     r = Raise e /\
     nth_error (script backend shots) k = Some ev /\
     tr = firstn k (script backend shots) ++ [ev] /\
     Forall (fun ev' => outside backend library ev' = Ok tt)
            (firstn k (script backend shots)) /\
     outside backend library ev = Raise e).
Proof.
  rewrite run_demo_plays_script.
  destruct (play_outcome (outside backend library) (script backend shots) [])
    as [[Hall ->]|(k & ev & e & Hk & Hall & He & ->)]; intro H.
  - injection H as <- <-. left. auto.
  - injection H as <- <-. right. exists k, ev, e. auto.
Qed.

(** An answered execution is an answer of the backend. *)
Lemma execution_answered (c : QuantumCircuit) (shots : Z) :
  outside backend library (Execute c shots) = Ok tt ->
  backend c shots = Ok (counts_of backend c shots).
Proof.
  unfold outside, counts_of. destruct (backend c shots); [reflexivity|discriminate].
Qed.

End Demo.






(** A run the plotting library interrupts: with an empty distribution
    for ["zero"] and a library that cannot plot one, the run raises at the
    first histogram, after its three backend calls, and prints nothing. *)
Lemma run_demo_stops_at_empty_plot :
  Harness.run_demo (fun _ _ => Ok []) no_empty_plot 0 []
  = (Raise StopIteration,
     [Harness.GetBackend "qasm_simulator";
      Harness.Execute (demo_circuit []) 0;
      Harness.Execute (demo_circuit [(Qiskit.XGate, [0%nat], [])]) 0;
      Harness.Execute (demo_circuit [(Qiskit.HGate, [0%nat], [])]) 0;
      Harness.Subplots 1 3 (12, 3);
      Harness.PlotHistogram 0 []]).
Proof. rewrite run_demo_plays_script. reflexivity. Qed.

(* ================================================================== *)
(** ** More on the decoder *)

Section DecoderMore.

Lemma int_of_digit (c : ascii) :
  is_digit c = true -> int_of_char c = Ok (digit_value c).
Proof.
  unfold is_digit, int_of_char, digit_value. cbv zeta. now intros ->.
Qed.

Lemma int_of_non_digit (c : ascii) :
  is_digit c = false -> int_of_char c = Raise (IntValueError c).
Proof.
  unfold is_digit, int_of_char. cbv zeta. now intros ->.
Qed.

Lemma ints_of_digits (l : list ascii) :
  forallb is_digit l = true ->
  list_comprehension int_of_char l = Ok (map digit_value l).
Proof.
  induction l as [|c l IH]; cbn [forallb list_comprehension map]; intro H.
  - reflexivity.
  - apply andb_true_iff in H. destruct H as [Hc Hl].
    rewrite (int_of_digit c Hc). cbn [Py.bind]. now rewrite (IH Hl).
Qed.

(** The comprehension stops at the first character that is no digit. *)
Lemma ints_stop_at_non_digit (l1 l2 : list ascii) (c : ascii) :
  forallb is_digit l1 = true -> is_digit c = false ->
  list_comprehension int_of_char (l1 ++ c :: l2) = Raise (IntValueError c).
Proof.
  intros H1 Hc. induction l1 as [|d l1 IH]; cbn [app list_comprehension].
  - now rewrite (int_of_non_digit c Hc).
  - cbn [forallb] in H1. apply andb_true_iff in H1. destruct H1 as [Hd Hl].
    rewrite (int_of_digit d Hd). cbn [Py.bind]. now rewrite (IH Hl).
Qed.

Lemma ints_ok_digits (l : list ascii) (bits : list Z) :
  list_comprehension int_of_char l = Ok bits -> forallb is_digit l = true.
Proof.
  revert bits. induction l as [|c l IH]; intros bits H.
  - reflexivity.
  - cbn [list_comprehension forallb] in *.
    destruct (is_digit c) eqn:Hc.
    + rewrite (int_of_digit c Hc) in H. cbn [Py.bind] in H.
      destruct (list_comprehension int_of_char l) as [bs|] eqn:E;
        [|discriminate].
      now rewrite (IH bs eq_refl).
    + rewrite (int_of_non_digit c Hc) in H. discriminate.
Qed.

Lemma sum_app (l1 l2 : list Z) : Py.sum (l1 ++ l2) = Py.sum l1 + Py.sum l2.
Proof.
  induction l1 as [|a l1 IH]; [reflexivity|].
  cbn [app]. rewrite !sum_cons, IH. lia.
Qed.

Lemma sum_rev (l : list Z) : Py.sum (rev l) = Py.sum l.
Proof.
  induction l as [|a l IH]; [reflexivity|].
  cbn [rev]. rewrite sum_app, IH, !sum_cons. unfold Py.sum at 2. simpl. lia.
Qed.

Lemma sum_digit_values (l : list ascii) :
  Py.sum (map digit_value l) = fold_right (fun c acc => digit_value c + acc) 0 l.
Proof.
  induction l as [|c l IH]; [reflexivity|].
  cbn [map fold_right]. now rewrite sum_cons, IH.
Qed.

(** The 3-bit outcomes are the eight of [three_bit_keys]. *)
Lemma three_bits_enumerated (key : string) :
  is_bitstring key = true -> width key = 3 -> In key three_bit_keys.
Proof.
  unfold is_bitstring, width. intros Hb Hw.
  destruct key as [|c0 [|c1 [|c2 [|c3 rest]]]]; cbn in Hw; try lia.
  cbn [list_ascii_of_string forallb] in Hb.
  repeat (apply andb_true_iff in Hb; destruct Hb as [? Hb]).
  repeat match goal with
         | H : is_bit _ = true |- _ =>
             unfold is_bit in H; apply orb_true_iff in H;
             destruct H as [H|H]; apply Ascii.eqb_eq in H; subst
         end; cbn; tauto.
Qed.

End DecoderMore.

(** X1: on 3-bit outcomes the vote corrects one flipped bit and no more:
    an outcome within Hamming distance 1 of the codeword of [b] is voted
    [b], an outcome at distance 2 or 3 is voted the opposite bit. *)
Theorem majority_corrects_one_flip :
  forall key b,
    is_bitstring key = true -> width key = 3 -> b = 0 \/ b = 1 ->
    (hamming key (codeword b) <= 1 -> majority_from_key key = Ok b) /\
    (2 <= hamming key (codeword b) -> majority_from_key key = Ok (1 - b)).
Proof.
  intros key b Hb Hw Hbit.
  pose proof (three_bits_enumerated key Hb Hw) as Hin.
  cbn [three_bit_keys In] in Hin.
  repeat (destruct Hin as [<-|Hin]); [..|contradiction];
    destruct Hbit as [-> | ->]; split; intro H; try reflexivity;
    match type of H with
    | context [hamming ?k ?c] =>
        let v := eval vm_compute in (hamming k c) in
        change (hamming k c) with v in H; lia
    end.
Qed.

Lemma majority_corrects_one_flip_witness :
  (hamming "010" (codeword 0) <= 1 -> majority_from_key "010" = Ok 0) /\
  (2 <= hamming "010" (codeword 0) -> majority_from_key "010" = Ok (1 - 0)).
Proof.
  apply (majority_corrects_one_flip "010" 0); [reflexivity|reflexivity|].
  left. reflexivity.
Defined.

(** X2: an ASCII key with a character that is no decimal digit makes
    [majority_from_key] raise the [ValueError] of [int]; as the key is read
    from its end, the exception is the one of the last such character. *)
Theorem majority_from_key_raises_on_last_non_digit :
  forall before c after,
    forallb is_ascii_char (before ++ c :: after) = true ->
    is_digit c = false -> forallb is_digit after = true ->
    majority_from_key (string_of_list_ascii (before ++ c :: after))
    = Raise (IntValueError c).
Proof.
  intros before c after _ Hc Hafter. unfold majority_from_key.
  rewrite chars_reversed, list_ascii_of_string_of_list_ascii.
  rewrite rev_app_distr. cbn [rev]. rewrite <- app_assoc. cbn [app].
  rewrite ints_stop_at_non_digit; [reflexivity| |exact Hc].
  now rewrite forallb_rev.
Qed.

Lemma majority_from_key_raises_on_last_non_digit_witness :
  majority_from_key "1x0 1" = Raise (IntValueError " ").
Proof.
  apply (majority_from_key_raises_on_last_non_digit
           ["1"; "x"; "0"]%char " "%char ["1"]%char); reflexivity.
Defined.

(** X3: on ASCII keys [majority_from_key] returns exactly when every
    character is a decimal digit.  It then adds up the digit values, so a
    digit above 1 counts for more than one bit: the result is 1 when the
    digit sum is at least 2 and 0 otherwise, and never anything but 0
    or 1. *)
Theorem majority_from_key_digits :
  forall key,
    ascii_only key = true ->
    (all_digits key = true ->
       majority_from_key key = Ok (if digit_sum key >=? 2 then 1 else 0)) /\
    (forall v, majority_from_key key = Ok v ->
       all_digits key = true /\ (v = 0 \/ v = 1)).
Proof.
  intros key _. unfold majority_from_key, all_digits, digit_sum. split.
  - intro H. rewrite chars_reversed.
    rewrite ints_of_digits by (now rewrite forallb_rev).
    cbn [Py.bind]. rewrite map_rev, sum_rev, sum_digit_values. reflexivity.
  - intros v H. rewrite chars_reversed in H.
    destruct (list_comprehension int_of_char (rev (list_ascii_of_string key)))
      as [bits|] eqn:E; [|discriminate].
    apply ints_ok_digits in E. rewrite forallb_rev in E. split; [exact E|].
    cbn [Py.bind] in H. injection H as <-.
    destruct (Py.sum bits >=? 2); auto.
Qed.

Lemma majority_from_key_digits_witness :
  majority_from_key "200" = Ok (if digit_sum "200" >=? 2 then 1 else 0).
Proof.
  apply (proj1 (majority_from_key_digits "200" eq_refl)). reflexivity.
Defined.

(** X4: on 3-bit outcomes the vote commutes with flipping every bit. *)
Theorem majority_of_complement :
  forall key v,
    is_bitstring key = true -> width key = 3 ->
    majority_from_key key = Ok v ->
    majority_from_key (complement key) = Ok (1 - v).
Proof.
  intros key v Hb Hw.
  pose proof (three_bits_enumerated key Hb Hw) as Hin.
  cbn [three_bit_keys In] in Hin.
  repeat (destruct Hin as [<-|Hin]); [..|contradiction];
    intro H; vm_compute in H; injection H as <-; reflexivity.
Qed.

Lemma majority_of_complement_witness :
  majority_from_key (complement "001") = Ok (1 - 0).
Proof. apply (majority_of_complement "001" 0); reflexivity. Defined.

(* ================================================================== *)
(** ** More on the circuits *)

Section CircuitsMore.

Import Qiskit.

Lemma known_label_cases (s : string) :
  known_label s = true <-> s = "zero" \/ s = "one" \/ s = "plus".
Proof.
  unfold known_label. rewrite !orb_true_iff, !String.eqb_eq. tauto.
Qed.

Lemma prepare_logical_known (s : string) :
  known_label s = true ->
  exists prep,
    In prep preparations /\
    prepare_logical s base_circuit
    = Ok (mkCircuit "3q_bitflip_demo" 3 3 prep).
Proof.
  intro H. apply known_label_cases in H.
  destruct H as [-> | [-> | ->]]; eexists; (split; [|reflexivity]); cbn; auto.
Qed.

Lemma prepare_logical_unknown (s : string) :
  known_label s = false ->
  prepare_logical s base_circuit = Raise (ValueError state_prep_message).
Proof.
  unfold known_label, prepare_logical. intro H.
  apply orb_false_iff in H. destruct H as [H H3].
  apply orb_false_iff in H. destruct H as [H1 H2].
  now rewrite H1, H2, H3.
Qed.

Lemma bit_index_3 (e : Z) (q : nat) :
  bit_index 3 e = Ok q -> -3 <= e < 3 /\ (q < 3)%nat.
Proof.
  intro H.
  assert (-3 <= e < 3) as Hr.
  { destruct (Z_lt_ge_dec e (-3)) as [L|G].
    - rewrite bit_index_out_of_range in H by lia. discriminate.
    - destruct (Z_lt_ge_dec e 3) as [L'|G']; [lia|].
      rewrite bit_index_out_of_range in H by lia. discriminate. }
  split; [exact Hr|].
  rewrite (bit_index_in_range e Hr) in H. injection H as <-.
  assert (0 <= e mod 3 < 3) by (apply Z.mod_pos_bound; lia). lia.
Qed.

(** What [make_circuit_with_error] returns, by the preparation and the
    resolution of the index. *)
Lemma make_circuit_with_error_result (s : string) (e : Z) :
  make_circuit_with_error s e
  = match prepare_logical s base_circuit with
    | Raise err => Raise err
    | Ok prep =>
        match bit_index 3 e with
        | Raise err => Raise err
        | Ok q => Ok (fault_circuit (data prep) q)
        end
    end.
Proof.
  destruct (known_label s) eqn:Hs.
  - destruct (prepare_logical_known s Hs) as (prep & _ & Hp).
    unfold make_circuit_with_error. fold base_circuit. rewrite Hp.
    cbn [Py.bind].
    change (encode_bitflip 0)
      with (Ok (mkCircuit "encode" 3 0 [cx01; cx02])).
    change decode_bitflip
      with (Ok (mkCircuit "decode" 3 0 [cx02; cx01])).
    cbn [Py.bind]. unfold append, x, to_instruction. cbn [num_qubits].
    change (list_comprehension (bit_index 3) [0; 1; 2])
      with (Ok [0%nat; 1%nat; 2%nat]).
    cbn [Py.bind List.length op_width Nat.eqb push name num_qubits
         num_clbits data].
    destruct (bit_index 3 e) as [q|err]; [|reflexivity].
    unfold fault_circuit, measure, measurements, encode_entry, decode_entry.
    cbn. unfold push. cbn [data name num_qubits num_clbits].
    rewrite <- !app_assoc. reflexivity.
  - unfold make_circuit_with_error. fold base_circuit.
    now rewrite (prepare_logical_unknown s Hs).
Qed.

(** The circuits the program can build: three preparations, three qubits
    for the fault. *)
Lemma make_circuit_with_error_enumerated (s : string) (e : Z)
  (qc : QuantumCircuit) :
  make_circuit_with_error s e = Ok qc ->
  exists prep q,
    In prep preparations /\ (q < 3)%nat /\ qc = fault_circuit prep q.
Proof.
  rewrite make_circuit_with_error_result. intro H.
  destruct (known_label s) eqn:Hs.
  - destruct (prepare_logical_known s Hs) as (prep & Hin & Hp).
    rewrite Hp in H. cbn [data] in H.
    destruct (bit_index 3 e) as [q|err] eqn:Hq; [|discriminate].
    injection H as <-. exists prep, q.
    split; [exact Hin|]. split; [|reflexivity].
    now apply (bit_index_3 e q).
  - rewrite (prepare_logical_unknown s Hs) in H. discriminate.
Qed.

Lemma amp_eq_dec (a b : Simulator.amp) : {a = b} + {a <> b}.
Proof. repeat decide equality. Qed.

Lemma probability_of_distribution (qc : QuantumCircuit) (key : string) :
  Simulator.probability qc key
  = fold_left (fun acc (kw : string * Simulator.amp) =>
                 if String.eqb (fst kw) key
                 then Simulator.amp_add acc (snd kw) else acc)
              (distribution qc) Simulator.amp_zero.
Proof.
  unfold Simulator.probability, distribution.
  generalize Simulator.amp_zero. induction (Simulator.run qc) as [|br l IH].
  - reflexivity.
  - intro acc. cbn [map fold_left fst snd]. apply IH.
Qed.

(** A key read with non-zero probability is the key of a branch of
    non-zero weight. *)
Lemma probability_support (qc : QuantumCircuit) (key : string) :
  Simulator.probability qc key <> Simulator.amp_zero ->
  exists w, In (key, w) (distribution qc) /\ w <> Simulator.amp_zero.
Proof.
  rewrite probability_of_distribution.
  induction (distribution qc) as [|[k w] l IH]; cbn [fold_left fst snd].
  - intro H. now elim H.
  - destruct (String.eqb_spec k key) as [->|Hk].
    + destruct (amp_eq_dec w Simulator.amp_zero) as [->|Hw].
      * intro H. destruct (IH H) as (w' & Hin & Hw'). exists w'.
        split; [now right|exact Hw'].
      * intros _. exists w. split; [now left|exact Hw].
    + intro H. destruct (IH H) as (w' & Hin & Hw'). exists w'.
      split; [now right|exact Hw'].
Qed.

(** The keys a concrete circuit can be read as: the branches of non-zero
    weight, one case each. *)
Ltac possible_keys H :=
  apply probability_support in H;
  let w := fresh "w" in
  let Hin := fresh "Hin" in
  let Hw := fresh "Hw" in
  destruct H as (w & Hin & Hw);
  match type of Hin with
  | In _ (distribution ?qc) =>
      let d := eval vm_compute in (distribution qc) in
      change (distribution qc) with d in Hin
  end;
  cbn [In] in Hin;
  repeat (destruct Hin as [Hin|Hin];
          [injection Hin as <- <-; try (now elim Hw)|]);
  [..|contradiction].

(** X5: the encoding copies qubit 0 onto qubits 1 and 2, for a
    superposition as well: with qubits 1 and 2 at zero, the amplitude of
    "qubit 0 is 0" stays on 000 and the amplitude of "qubit 0 is 1" moves
    to 111, whatever the unused argument [msg_qubit_index]. *)
Theorem encode_copies_qubit_0 :
  forall m creg a0 a1,
    exists enc,
      encode_bitflip m = Ok enc /\
      Simulator.run_from 3 (data enc)
        [(creg, [a0; a1; Simulator.amp_zero; Simulator.amp_zero;
                 Simulator.amp_zero; Simulator.amp_zero;
                 Simulator.amp_zero; Simulator.amp_zero])]
      = [(creg, [a0; Simulator.amp_zero; Simulator.amp_zero;
                 Simulator.amp_zero; Simulator.amp_zero;
                 Simulator.amp_zero; Simulator.amp_zero; a1])].
Proof.
  intros m creg a0 a1. eexists. split; reflexivity.
Qed.

(** X6: although they list the two CNOTs in opposite orders, the encoding
    and the decoding circuit act alike on every state of the three qubits,
    and each of them applied twice changes nothing. *)
Theorem encode_and_decode_coincide :
  exists enc dec,
    encode_bitflip 0 = Ok enc /\
    decode_bitflip = Ok dec /\
    forall creg a0 a1 a2 a3 a4 a5 a6 a7,
      let v := [(creg, [a0; a1; a2; a3; a4; a5; a6; a7])] in
      Simulator.run_from 3 (data enc) v = Simulator.run_from 3 (data dec) v /\
      Simulator.run_from 3 (data enc ++ data enc) v = v /\
      Simulator.run_from 3 (data dec ++ data dec) v = v.
Proof.
  eexists. eexists. split; [reflexivity|]. split; [reflexivity|].
  intros. repeat split.
Qed.

(** X7: [make_circuit_with_error] returns a circuit exactly for a known
    label with an index from -3 to 2.  An unknown label gives the
    [ValueError], whatever the index; a known label with an index outside
    -3 .. 2 gives the out-of-range error. *)
Theorem make_circuit_with_error_outcomes :
  forall s e,
    ((exists qc, make_circuit_with_error s e = Ok qc)
     <-> known_label s = true /\ -3 <= e < 3) /\
    (make_circuit_with_error s e = Raise (ValueError state_prep_message)
     <-> known_label s = false) /\
    (make_circuit_with_error s e = Raise (CircuitError_index e 3)
     <-> known_label s = true /\ ~ (-3 <= e < 3)).
Proof.
  intros s e. rewrite make_circuit_with_error_result.
  assert (e < -3 \/ 3 <= e \/ -3 <= e < 3) as Hr by lia.
  destruct (known_label s) eqn:Hs.
  - destruct (prepare_logical_known s Hs) as (prep & _ & ->).
    destruct Hr as [Hr|[Hr|Hr]];
      [rewrite bit_index_out_of_range by lia
      |rewrite bit_index_out_of_range by lia
      |rewrite bit_index_in_range by lia];
      (split; [|split]); (split; intro H);
      first [ discriminate H
            | reflexivity
            | split; [reflexivity | lia]
            | eexists; reflexivity
            | destruct H as [? H]; discriminate H
            | destruct H; lia ].
  - rewrite (prepare_logical_unknown s Hs).
    (split; [|split]); (split; intro H);
      first [ discriminate H
            | reflexivity
            | destruct H as [? H]; discriminate H
            | destruct H as [H ?]; discriminate H ].
Qed.

(** X8: every circuit [make_circuit_with_error] returns has three qubits
    and three classical bits; inlined, it is a list of gates on those three
    qubits followed by the measurements of qubit i into classical bit i,
    which are its only measurements, and its CNOTs are the two of the
    encoding followed by the two of the decoding. *)
Theorem make_circuit_with_error_shape :
  forall s e qc,
    make_circuit_with_error s e = Ok qc ->
    num_qubits qc = 3%nat /\ num_clbits qc = 3%nat /\
    exists gates,
      decompose qc = gates ++ measurements /\
      forallb gate_on_register gates = true /\
      filter is_cnot gates = [cx01; cx02; cx02; cx01].
Proof.
  intros s e qc H.
  destruct (make_circuit_with_error_enumerated s e qc H)
    as (prep & q & Hin & Hq & ->).
  split; [reflexivity|]. split; [reflexivity|].
  exists (prep ++ [cx01; cx02; (XGate, [q], []); cx02; cx01]).
  assert (q = 0 \/ q = 1 \/ q = 2)%nat as Hq3 by lia.
  cbn [preparations In] in Hin.
  destruct Hin as [<-|[<-|[<-|[]]]];
    destruct Hq3 as [-> | [-> | ->]]; repeat split.
Qed.

(** X9: with a basis state prepared and one bit-flip on qubit 0, 1 or 2,
    every shot reads the same outcome, [faulty_outcome]: classical bits 1
    and 2 tell which qubit was flipped, whatever was prepared, and
    classical bit 0 is the prepared bit unless qubit 0 itself was flipped. *)
Theorem single_fault_outcome :
  forall s b e,
    logical_bit s = Some b -> 0 <= e < 3 ->
    exists qc,
      make_circuit_with_error s e = Ok qc /\
      Simulator.probability qc (faulty_outcome (b =? 1) e)
      = Simulator.amp_one /\
      forall key,
        Simulator.probability qc key <> Simulator.amp_zero ->
        key = faulty_outcome (b =? 1) e.
Proof.
  unfold logical_bit. intros s b e Hs He.
  assert (e = 0 \/ e = 1 \/ e = 2) as C by lia.
  destruct (String.eqb_spec s "zero") as [->|_];
    [|destruct (String.eqb_spec s "one") as [->|_]; [|discriminate]];
    injection Hs as <-;
    destruct C as [-> | [-> | ->]];
    (eexists; split; [reflexivity|]; split; [reflexivity|];
     intros key H; possible_keys H; reflexivity).
Qed.

(** X10: for a basis state and one bit-flip on qubit 0, 1 or 2, the vote
    on any outcome the circuit can give is the prepared bit in all cases
    but one: the flip on qubit 0 with ["zero"] prepared. *)
Theorem single_fault_vote :
  forall s b e qc key,
    logical_bit s = Some b -> 0 <= e < 3 ->
    make_circuit_with_error s e = Ok qc ->
    Simulator.probability qc key <> Simulator.amp_zero ->
    (majority_from_key key = Ok b <-> e <> 0 \/ b = 1).
Proof.
  unfold logical_bit. intros s b e qc key Hs He Hqc H.
  assert (e = 0 \/ e = 1 \/ e = 2) as C by lia.
  destruct (String.eqb_spec s "zero") as [->|_];
    [|destruct (String.eqb_spec s "one") as [->|_]; [|discriminate]];
    injection Hs as <-;
    destruct C as [-> | [-> | ->]];
    vm_compute in Hqc; injection Hqc as <-;
    possible_keys H;
    (split; intro M;
     [first [lia | vm_compute in M; discriminate M]
     |first [reflexivity | lia]]).
Qed.

(** X11: with ["plus"] prepared and one bit-flip on qubit 0, 1 or 2, a
    shot reads the outcome of the ["zero"] circuit or the outcome of the
    ["one"] circuit with the same fault, each with probability one half,
    and nothing else. *)
Theorem plus_outcomes :
  forall e,
    0 <= e < 3 ->
    exists qc,
      make_circuit_with_error "plus" e = Ok qc /\
      Simulator.probability qc (faulty_outcome false e) = one_half /\
      Simulator.probability qc (faulty_outcome true e) = one_half /\
      forall key,
        Simulator.probability qc key <> Simulator.amp_zero ->
        key = faulty_outcome false e \/ key = faulty_outcome true e.
Proof.
  intros e He.
  assert (e = 0 \/ e = 1 \/ e = 2) as C by lia.
  destruct C as [-> | [-> | ->]];
    (eexists; split; [reflexivity|]; split; [reflexivity|];
     split; [reflexivity|];
     intros key H; possible_keys H; auto).
Qed.

(** X12: whatever circuit [make_circuit_with_error] returns, the outcomes
    it can be read as are strings of three bits, on which
    [majority_from_key] returns a vote and does not raise; and the
    probabilities of the eight 3-bit outcomes add up to 1. *)
Theorem outcomes_are_three_bits :
  forall s e qc,
    make_circuit_with_error s e = Ok qc ->
    total_probability qc = Simulator.amp_one /\
    forall key,
      Simulator.probability qc key <> Simulator.amp_zero ->
      is_bitstring key = true /\ width key = 3 /\
      exists v, majority_from_key key = Ok v.
Proof.
  intros s e qc H.
  destruct (make_circuit_with_error_enumerated s e qc H)
    as (prep & q & Hin & Hq & ->).
  assert (q = 0 \/ q = 1 \/ q = 2)%nat as Hq3 by lia.
  cbn [preparations In] in Hin.
  destruct Hin as [<-|[<-|[<-|[]]]];
    destruct Hq3 as [-> | [-> | ->]];
    (split; [vm_compute; reflexivity|];
     intros key Hk; possible_keys Hk;
     (split; [reflexivity|]; split; [reflexivity|];
      eexists; reflexivity)).
Qed.

End CircuitsMore.

Lemma make_circuit_with_error_shape_witness :
  Qiskit.num_qubits (fault_circuit [(Qiskit.HGate, [0%nat], [])] 2) = 3%nat /\
  Qiskit.num_clbits (fault_circuit [(Qiskit.HGate, [0%nat], [])] 2) = 3%nat /\
  exists gates,
    Qiskit.decompose (fault_circuit [(Qiskit.HGate, [0%nat], [])] 2)
    = gates ++ measurements /\
    forallb gate_on_register gates = true /\
    filter is_cnot gates = [cx01; cx02; cx02; cx01].
Proof.
  apply (make_circuit_with_error_shape "plus" (-1)). reflexivity.
Defined.

Lemma single_fault_outcome_witness :
  exists qc,
    make_circuit_with_error "one" 2 = Ok qc /\
    Simulator.probability qc (faulty_outcome (1 =? 1) 2)
    = Simulator.amp_one /\
    forall key,
      Simulator.probability qc key <> Simulator.amp_zero ->
      key = faulty_outcome (1 =? 1) 2.
Proof.
  apply (single_fault_outcome "one" 1 2); [reflexivity|lia].
Defined.

Lemma single_fault_vote_witness :
  majority_from_key "111" = Ok 0 <-> 0 <> 0 \/ 0 = 1.
Proof.
  apply (single_fault_vote "zero" 0 0 (fault_circuit [] 0) "111");
    [reflexivity|lia|reflexivity|].
  vm_compute. discriminate.
Defined.

Lemma plus_outcomes_witness :
  exists qc,
    make_circuit_with_error "plus" 1 = Ok qc /\
    Simulator.probability qc (faulty_outcome false 1) = one_half /\
    Simulator.probability qc (faulty_outcome true 1) = one_half /\
    forall key,
      Simulator.probability qc key <> Simulator.amp_zero ->
      key = faulty_outcome false 1 \/ key = faulty_outcome true 1.
Proof. apply (plus_outcomes 1). lia. Defined.

Lemma outcomes_are_three_bits_witness :
  total_probability (fault_circuit [(Qiskit.HGate, [0%nat], [])] 1)
  = Simulator.amp_one /\
  forall key,
    Simulator.probability (fault_circuit [(Qiskit.HGate, [0%nat], [])] 1) key
    <> Simulator.amp_zero ->
    is_bitstring key = true /\ width key = 3 /\
    exists v, majority_from_key key = Ok v.
Proof.
  apply (outcomes_are_three_bits "plus" 1). reflexivity.
Defined.

(** X15: an index from -3 to -1 counts the qubits from the end: the
    circuit built for [e - 3] is the circuit built for [e], so -1 flips
    qubit 2, -2 qubit 1 and -3 qubit 0. *)
Theorem negative_index_same_circuit :
  forall s e,
    0 <= e < 3 ->
    make_circuit_with_error s (e - 3) = make_circuit_with_error s e.
Proof.
  intros s e He. rewrite !make_circuit_with_error_result.
  destruct (prepare_logical s base_circuit) as [prep|err]; [|reflexivity].
  rewrite !bit_index_in_range by lia.
  replace (e - 3) with (e + (-1) * 3) by lia.
  now rewrite Z.mod_add by lia.
Qed.

Lemma negative_index_same_circuit_witness :
  make_circuit_with_error "one" (2 - 3) = make_circuit_with_error "one" 2.
Proof. apply (negative_index_same_circuit "one" 2). lia. Defined.

(* ================================================================== *)
(** ** More on the demo run *)

(** X13: [run_demo] raises nothing of its own.  When a run raises, the
    exception is the one of the last call it made to the outside, the
    backend for an execution and a library otherwise, and every earlier
    call had returned; when that last call is an execution, nothing has
    been plotted or printed. *)
Theorem run_demo_failure_is_from_outside :
  forall backend library shots e tr,
    Harness.run_demo backend library shots [] = (Raise e, tr) ->
    exists before ev,
      tr = before ++ [ev] /\
      outside backend library ev = Raise e /\
      Forall (fun ev' => outside backend library ev' = Ok tt) before /\
      (forall qc s, ev = Harness.Execute qc s ->
         backend qc s = Raise e /\ plotting tr = [] /\ printed tr = []).
Proof.
  intros backend library shots e tr H.
  destruct (run_demo_outcome backend library shots _ _ H)
    as [(Hr & _)|(k & ev & e' & Hr & Hk & -> & Hall & He)]; [discriminate|].
  injection Hr as <-.
  exists (firstn k (script backend shots)), ev.
  split; [reflexivity|]. split; [exact He|]. split; [exact Hall|].
  intros qc s ->. split.
  - unfold outside in He. destruct (backend qc s); [discriminate|].
    now injection He as ->.
  - unfold script in *. cbv zeta in *.
    do 16 (try destruct k as [|k]); cbn in Hk; try discriminate;
      injection Hk as <- <-; split; reflexivity.
Qed.

Lemma run_demo_failure_is_from_outside_witness :
  exists before ev,
    [Harness.GetBackend "qasm_simulator";
     Harness.Execute (demo_circuit []) 10;
     Harness.Execute (demo_circuit [(Qiskit.XGate, [0%nat], [])]) 10]
    = before ++ [ev] /\
    outside down_for_one obliging ev = Raise (BackendError "down") /\
    Forall (fun ev' => outside down_for_one obliging ev' = Ok tt) before /\
    (forall qc s, ev = Harness.Execute qc s ->
       down_for_one qc s = Raise (BackendError "down") /\
       plotting [Harness.GetBackend "qasm_simulator";
                 Harness.Execute (demo_circuit []) 10;
                 Harness.Execute (demo_circuit [(Qiskit.XGate, [0%nat], [])]) 10]
       = [] /\
       printed [Harness.GetBackend "qasm_simulator";
                Harness.Execute (demo_circuit []) 10;
                Harness.Execute (demo_circuit [(Qiskit.XGate, [0%nat], [])]) 10]
       = []).
Proof.
  apply (run_demo_failure_is_from_outside down_for_one obliging 10
           (BackendError "down")).
  rewrite run_demo_plays_script. reflexivity.
Defined.

(** X14: a run that returns has obtained the backend, made its three
    backend calls, for ["zero"], ["one"] and ["plus"] with the X on qubit
    1, all three answered; it holds the three answers under their labels,
    [total] is the sum of the counts for ["plus"], and what it did is, in
    this order: the backend handle, the three calls, the figure with its
    three axes, one histogram per label with its title, the layout, the
    display of the figure, the two printed lines. *)
Theorem run_demo_success_trace :
  forall backend library shots l tr,
    Harness.run_demo backend library shots [] = (Ok l, tr) ->
    exists qz qo qp cz co cp,
      make_circuit_with_error "zero" 1 = Ok qz /\
      make_circuit_with_error "one" 1 = Ok qo /\
      make_circuit_with_error "plus" 1 = Ok qp /\
      backend qz shots = Ok cz /\
      backend qo shots = Ok co /\
      backend qp shots = Ok cp /\
      Harness.histograms l = [("zero", cz); ("one", co); ("plus", cp)] /\
      Harness.total l = Py.sum (map snd cp) /\
      tr = [Harness.GetBackend "qasm_simulator";
            Harness.Execute qz shots; Harness.Execute qo shots;
            Harness.Execute qp shots;
            Harness.Subplots 1 3 (12, 3);
            Harness.PlotHistogram 0 cz;
            Harness.SetTitle 0 "Input |zero> with X on qubit 1";
            Harness.PlotHistogram 1 co;
            Harness.SetTitle 1 "Input |one> with X on qubit 1";
            Harness.PlotHistogram 2 cp;
            Harness.SetTitle 2 "Input |plus> with X on qubit 1";
            Harness.TightLayout; Harness.ShowFigure;
            Harness.PrintStr "Raw counts for |+> (Z-basis measurement):";
            Harness.PrintCounts cp].
Proof.
  intros backend library shots l tr H.
  destruct (run_demo_outcome backend library shots _ _ H)
    as [(Hl & -> & Hall)|(k & ev & e & Hr & _)]; [|discriminate].
  injection Hl as ->.
  pose proof (proj1 (Forall_forall _ _) Hall) as Hin.
  exists (demo_circuit []), (demo_circuit [(Qiskit.XGate, [0%nat], [])]),
         (demo_circuit [(Qiskit.HGate, [0%nat], [])]),
         (counts_of backend (demo_circuit []) shots),
         (counts_of backend (demo_circuit [(Qiskit.XGate, [0%nat], [])]) shots),
         (counts_of backend (demo_circuit [(Qiskit.HGate, [0%nat], [])]) shots).
  repeat split;
    apply (execution_answered backend library); apply Hin; cbn; tauto.
Qed.

Lemma run_demo_success_trace_witness :
  exists qz qo qp cz co cp,
    make_circuit_with_error "zero" 1 = Ok qz /\
    make_circuit_with_error "one" 1 = Ok qo /\
    make_circuit_with_error "plus" 1 = Ok qp /\
    two_outcomes qz 8 = Ok cz /\
    two_outcomes qo 8 = Ok co /\
    two_outcomes qp 8 = Ok cp /\
    Harness.histograms (final_locals two_outcomes 8)
    = [("zero", cz); ("one", co); ("plus", cp)] /\
    Harness.total (final_locals two_outcomes 8) = Py.sum (map snd cp) /\
    script two_outcomes 8
    = [Harness.GetBackend "qasm_simulator";
       Harness.Execute qz 8; Harness.Execute qo 8; Harness.Execute qp 8;
       Harness.Subplots 1 3 (12, 3);
       Harness.PlotHistogram 0 cz;
       Harness.SetTitle 0 "Input |zero> with X on qubit 1";
       Harness.PlotHistogram 1 co;
       Harness.SetTitle 1 "Input |one> with X on qubit 1";
       Harness.PlotHistogram 2 cp;
       Harness.SetTitle 2 "Input |plus> with X on qubit 1";
       Harness.TightLayout; Harness.ShowFigure;
       Harness.PrintStr "Raw counts for |+> (Z-basis measurement):";
       Harness.PrintCounts cp].
Proof.
  apply (run_demo_success_trace two_outcomes obliging 8
           (final_locals two_outcomes 8) (script two_outcomes 8)).
  rewrite run_demo_plays_script. reflexivity.
Defined.
